(** * reporegistry: distro/arch/image-type repository lookup

    A shallow embedding of [internal/reporegistry/reporegistry.go] and the
    properties of its query operations.

    Layout: [Go] holds the few Go notions the package relies on (slices that
    may be nil, interface values that may be nil or hold a nil pointer, error
    values), [rpmmd] and [distro] hold the data shapes of the two imported
    packages, [reporegistry] holds the package itself, one definition per
    source function.  The theorems follow the definitions. *)

From stdpp Require Import gmap strings list fin_maps.

(** ** Go values used by the package *)
Module Go.

(** A slice value is either [nil] or a (possibly empty) run of elements.
    [[]T{}] and [nil] both have length 0 but are different values, and the
    package returns one on success and the other on failure. *)
Definition slice (A : Type) : Type := option (list A).

Definition nil {A : Type} : slice A := None.

(** The composite literal [[]T{x1, ..., xn}]; never [nil]. *)
Definition lit {A : Type} (l : list A) : slice A := Some l.

(** The elements a [range] loop visits, in order. *)
Definition elems {A : Type} (s : slice A) : list A :=
  match s with
  | None => []
  | Some l => l
  end.

Definition len {A : Type} (s : slice A) : nat := length (elems s).

(** [append(s, x)]: the result is never [nil]. *)
Definition append {A : Type} (s : slice A) (x : A) : slice A :=
  Some (elems s ++ [x]).

(** A value of interface type holding a pointer implementation: the nil
    interface, an interface wrapping a nil pointer, or a live object. *)
Inductive iface (A : Type) : Type :=
| NilIface
| NilPtr
| Ptr (a : A).
Arguments NilIface {A}.
Arguments NilPtr {A}.
Arguments Ptr {A} a.

(** [x == nil] on an interface value. *)
Definition eq_nil {A : Type} (x : iface A) : bool :=
  match x with
  | NilIface => true
  | _ => false
  end.

(** [reflect.ValueOf(x).IsNil()], evaluated only when [x == nil] is false. *)
Definition reflect_IsNil {A : Type} (x : iface A) : bool :=
  match x with
  | Ptr _ => false
  | _ => true
  end.

(** An error value built by [fmt.Errorf] without wrapping: its message. *)
Definition error : Type := string.

End Go.

(** ** Package rpmmd *)
Module rpmmd.

(** Modelled from the spec: [rpmmd.RepoConfig] is declared outside this
    package.  Per the data model it is an identifying configuration (name
    and URL, not interpreted here) plus the ordered [ImageTypeTags]. *)
Record RepoConfig : Type := mkRepoConfig {
  Name : string;
  BaseURL : string;
  ImageTypeTags : Go.slice string
}.

#[export] Instance RepoConfig_eq_dec : EqDecision RepoConfig.
Proof. solve_decision. Defined.

(** [map[string]map[string][]RepoConfig]: distribution name, then
    architecture name.  A nil map reads like an empty one. *)
Abbreviation DistrosRepoConfigs := (gmap string (gmap string (Go.slice RepoConfig))).

End rpmmd.

(** ** Package distro *)
Module distro.

(** Modelled from the spec: the three descriptor interfaces are declared
    outside this package; only their name accessor and parent accessor are
    used.  A descriptor is recorded by what those methods return. *)
Record Distro : Type := mkDistro {
  Distro_Name : string
}.

Record Arch : Type := mkArch {
  Arch_Name : string;
  Arch_Distro : Go.iface Distro
}.

Record ImageType : Type := mkImageType {
  ImageType_Name : string;
  ImageType_Arch : Go.iface Arch
}.

End distro.

(** ** Package reporegistry *)
Module reporegistry.
Import rpmmd.

Record RepoRegistry : Type := mkRepoRegistry {
  repos : DistrosRepoConfigs
}.

Definition NewFromDistrosRepoConfigs (distrosRepoConfigs : DistrosRepoConfigs)
  : RepoRegistry :=
  {| repos := distrosRepoConfigs |}.

(** The four messages the package passes to [fmt.Errorf]. *)
Definition errNoArch : Go.error :=
  "there is no architecture associated with the provided image type".

Definition errNoDistroOfImageTypeArch : Go.error :=
  "there is no distribution associated with the architecture associated with the provided image type".

Definition errNoDistro : Go.error :=
  "there is no distribution associated with the provided architecture".

Definition errNoRepos (distro arch : string) : Go.error :=
  "there are no repositories for distribution '" +:+ distro +:+
  "' and architecture '" +:+ arch +:+ "'".

(** [DistroHasRepos]: the named result [repos] is still [nil] when the
    distribution is missing; a missing architecture yields the zero value
    of the inner map lookup, [nil] again. *)
Definition DistroHasRepos (r : RepoRegistry) (distro arch : string)
  : Go.slice RepoConfig * bool :=
  match repos r !! distro with
  | None => (Go.nil, false)
  | Some distroRepos =>
      match distroRepos !! arch with
      | Some repos => (repos, true)
      | None => (Go.nil, false)
      end
  end.

(** One iteration of the loop of [ReposByArchName]. *)
Definition archLoopBody (includeTagged : bool)
  (repositories : Go.slice RepoConfig) (repo : RepoConfig)
  : Go.slice RepoConfig :=
  if negb includeTagged && negb (Nat.eqb (Go.len (ImageTypeTags repo)) 0)
  then repositories
  else Go.append repositories repo.

Definition ReposByArchName (r : RepoRegistry) (distro arch : string)
  (includeTagged : bool) : Go.slice RepoConfig * option Go.error :=
  let repositories := Go.lit [] in
  let '(archRepos, found) := DistroHasRepos r distro arch in
  if negb found
  then (Go.nil, Some (errNoRepos distro arch))
  else
    let repositories :=
      foldl (archLoopBody includeTagged) repositories (Go.elems archRepos) in
    (repositories, None).

(** The inner loop of [reposByImageTypeName] over the remaining tags: the
    first tag equal to [imageType] appends [repo] and breaks. *)
Fixpoint tagLoop (imageType : string) (repo : RepoConfig)
  (tags : list string) (repositories : Go.slice RepoConfig)
  : Go.slice RepoConfig :=
  match tags with
  | [] => repositories
  | imageNameTag :: tags' =>
      if String.eqb imageNameTag imageType
      then Go.append repositories repo
      else tagLoop imageType repo tags' repositories
  end.

(** One iteration of the outer loop of [reposByImageTypeName]. *)
Definition imageTypeLoopBody (imageType : string)
  (repositories : Go.slice RepoConfig) (repo : RepoConfig)
  : Go.slice RepoConfig :=
  if Nat.eqb (Go.len (ImageTypeTags repo)) 0
  then Go.append repositories repo
  else tagLoop imageType repo (Go.elems (ImageTypeTags repo)) repositories.

Definition reposByImageTypeName (r : RepoRegistry)
  (distro arch imageType : string) : Go.slice RepoConfig * option Go.error :=
  let repositories := Go.lit [] in
  match ReposByArchName r distro arch true with
  | (_, Some err) => (Go.nil, Some err)
  | (archRepos, None) =>
      let repositories :=
        foldl (imageTypeLoopBody imageType) repositories (Go.elems archRepos) in
      (repositories, None)
  end.

(** [ReposByArch].  The last branch of the [match] is never reached: the
    test above it has already returned for both nil cases. *)
Definition ReposByArch (r : RepoRegistry) (arch : distro.Arch)
  (includeTagged : bool) : Go.slice RepoConfig * option Go.error :=
  if Go.eq_nil (distro.Arch_Distro arch)
     || Go.reflect_IsNil (distro.Arch_Distro arch)
  then (Go.nil, Some errNoDistro)
  else
    match distro.Arch_Distro arch with
    | Go.Ptr d =>
        ReposByArchName r (distro.Distro_Name d) (distro.Arch_Name arch)
          includeTagged
    | _ => (Go.nil, Some errNoDistro)
    end.

(** [ReposByImageType].  As above, the fall-through branches of the two
    [match]es are never reached. *)
Definition ReposByImageType (r : RepoRegistry) (imageType : distro.ImageType)
  : Go.slice RepoConfig * option Go.error :=
  if Go.eq_nil (distro.ImageType_Arch imageType)
     || Go.reflect_IsNil (distro.ImageType_Arch imageType)
  then (Go.nil, Some errNoArch)
  else
    match distro.ImageType_Arch imageType with
    | Go.Ptr arch =>
        if Go.eq_nil (distro.Arch_Distro arch)
           || Go.reflect_IsNil (distro.Arch_Distro arch)
        then (Go.nil, Some errNoDistroOfImageTypeArch)
        else
          match distro.Arch_Distro arch with
          | Go.Ptr d =>
              reposByImageTypeName r (distro.Distro_Name d)
                (distro.Arch_Name arch) (distro.ImageType_Name imageType)
          | _ => (Go.nil, Some errNoDistroOfImageTypeArch)
          end
    | _ => (Go.nil, Some errNoArch)
    end.

(** *** Calls on a registry object

    Every method has a pointer receiver, so a call could in principle
    write to the registry.  [invoke] runs one name-based query and returns
    its outcome together with the registry as the call leaves it; no method
    body assigns to [r.repos] or to an element of a stored slice, so that is
    the registry it was given. *)
Inductive Query : Type :=
| QDistroHasRepos (distro arch : string)
| QReposByArchName (distro arch : string) (includeTagged : bool)
| QreposByImageTypeName (distro arch imageType : string).

Inductive Outcome : Type :=
| Found (repos : Go.slice RepoConfig) (found : bool)
| Result (repos : Go.slice RepoConfig) (err : option Go.error).

Definition invoke (q : Query) (r : RepoRegistry) : Outcome * RepoRegistry :=
  match q with
  | QDistroHasRepos distro arch =>
      let '(repos, found) := DistroHasRepos r distro arch in
      (Found repos found, r)
  | QReposByArchName distro arch includeTagged =>
      let '(repos, err) := ReposByArchName r distro arch includeTagged in
      (Result repos err, r)
  | QreposByImageTypeName distro arch imageType =>
      let '(repos, err) := reposByImageTypeName r distro arch imageType in
      (Result repos err, r)
  end.


(** [New].  [rpmmd.LoadAllRepositories] belongs to another package and is
    taken as a parameter: from the paths it yields a table and an error.  The
    returned pointer is [None] for [nil]. *)
Definition New
  (LoadAllRepositories : Go.slice string → DistrosRepoConfigs * option Go.error)
  (repoConfigPaths : Go.slice string) : option RepoRegistry * option Go.error :=
  let '(repositories, err) := LoadAllRepositories repoConfigPaths in
  match err with
  | Some err => (None, Some err)
  | None => (Some {| repos := repositories |}, None)
  end.

End reporegistry.

(** ** Vocabulary of the specification

    These definitions follow the words of the specification, not the code;
    the theorems below compare the code with them. *)
Module Spec.
Import rpmmd reporegistry.

(** The sequence the table stores for a (distribution, architecture) pair,
    if both keys are present. *)
Definition stored (r : RepoRegistry) (distro arch : string)
  : option (Go.slice RepoConfig) :=
  repos r !! distro ≫= λ distroRepos, distroRepos !! arch.

(** An untagged repository: its tag sequence is empty. *)
Definition untagged (repo : RepoConfig) : Prop :=
  Go.elems (ImageTypeTags repo) = [].

(** The tag-match rule: empty tag sequence, or the image-type name is one
    of the tags. *)
Definition appliesTo (imageType : string) (repo : RepoConfig) : Prop :=
  Go.elems (ImageTypeTags repo) = [] ∨ imageType ∈ Go.elems (ImageTypeTags repo).

#[export] Instance untagged_dec repo : Decision (untagged repo).
Proof. unfold untagged. apply _. Defined.

#[export] Instance appliesTo_dec imageType repo : Decision (appliesTo imageType repo).
Proof. unfold appliesTo. apply _. Defined.

(** An unset parent reference of a descriptor. *)
Definition unset {A : Type} (x : Go.iface A) : Prop :=
  match x with
  | Go.Ptr _ => False
  | _ => True
  end.

(** The error kinds of the specification.  The code has no error types;
    a kind is recognised by the message [fmt.Errorf] was given. *)
Definition NotFoundError (e : Go.error) : Prop :=
  ∃ distro arch, e = errNoRepos distro arch.

Definition InvalidReferenceError (e : Go.error) : Prop :=
  e ∈ [errNoArch; errNoDistroOfImageTypeArch; errNoDistro].

(** The message [e] names [s]: [s] occurs in it. *)
Definition names (e : Go.error) (s : string) : Prop :=
  ∃ before after, e = before +:+ s +:+ after.

End Spec.

(** ** The example table of the specification *)
Module Example.
Import rpmmd reporegistry.

Definition A : RepoConfig :=
  {| Name := "A"; BaseURL := "https://example.com/A"; ImageTypeTags := Go.lit [] |}.

Definition B : RepoConfig :=
  {| Name := "B"; BaseURL := "https://example.com/B";
     ImageTypeTags := Go.lit ["qcow2"] |}.

Definition C : RepoConfig :=
  {| Name := "C"; BaseURL := "https://example.com/C";
     ImageTypeTags := Go.lit ["qcow2"; "ami"] |}.

(** [{"fedora": {"x86_64": [A, B, C]}}] *)
Definition registry : RepoRegistry :=
  NewFromDistrosRepoConfigs {[ "fedora" := {[ "x86_64" := Go.lit [A; B; C] ]} ]}.

(** A repository that lists the same image type twice. *)
Definition D : RepoConfig :=
  {| Name := "D"; BaseURL := "https://example.com/D";
     ImageTypeTags := Go.lit ["ami"; "qcow2"; "ami"] |}.

Definition registryD : RepoRegistry :=
  NewFromDistrosRepoConfigs {[ "fedora" := {[ "x86_64" := Go.lit [D; A; D] ]} ]}.

(** A table whose only pair holds an empty, non-nil sequence, and one whose
    only pair holds nil. *)
Definition registryEmpty : RepoRegistry :=
  NewFromDistrosRepoConfigs {[ "fedora" := {[ "x86_64" := Go.lit [] ]} ]}.

Definition registryNil : RepoRegistry :=
  NewFromDistrosRepoConfigs {[ "fedora" := {[ "x86_64" := Go.nil ]} ]}.

(** Descriptors: a complete chain, an architecture without distribution
    (nil interface, and nil pointer), an image type without architecture. *)
Definition fedora : distro.Distro := {| distro.Distro_Name := "fedora" |}.

Definition x86_64 : distro.Arch :=
  {| distro.Arch_Name := "x86_64"; distro.Arch_Distro := Go.Ptr fedora |}.

Definition orphanArch : distro.Arch :=
  {| distro.Arch_Name := "x86_64"; distro.Arch_Distro := Go.NilIface |}.

Definition orphanArchPtr : distro.Arch :=
  {| distro.Arch_Name := "x86_64"; distro.Arch_Distro := Go.NilPtr |}.

Definition qcow2 : distro.ImageType :=
  {| distro.ImageType_Name := "qcow2"; distro.ImageType_Arch := Go.Ptr x86_64 |}.

Definition orphanImageType : distro.ImageType :=
  {| distro.ImageType_Name := "qcow2"; distro.ImageType_Arch := Go.NilPtr |}.

Definition imageTypeOfOrphanArch : distro.ImageType :=
  {| distro.ImageType_Name := "qcow2"; distro.ImageType_Arch := Go.Ptr orphanArch |}.

(** The example table with a second distribution and a second architecture
    added beside the "fedora"/"x86_64" pair. *)
Definition registryMore : RepoRegistry :=
  NewFromDistrosRepoConfigs
    {[ "fedora" := {[ "x86_64" := Go.lit [A; B; C]; "aarch64" := Go.lit [B] ]};
       "centos" := {[ "x86_64" := Go.lit [C] ]} ]}.

(** A table that holds untagged repositories only. *)
Definition registryUntaggedOnly : RepoRegistry :=
  NewFromDistrosRepoConfigs {[ "fedora" := {[ "x86_64" := Go.lit [A; A] ]} ]}.

(** A loader that knows one path. *)
Definition loader (paths : Go.slice string)
  : DistrosRepoConfigs * option Go.error :=
  if bool_decide (Go.elems paths = ["/etc/osbuild-composer/repositories"])
  then ({[ "fedora" := {[ "x86_64" := Go.lit [A; B; C] ]} ]}, None)
  else (∅, Some "no repository definitions found").

End Example.

Import rpmmd reporegistry.

(** ** Lookup *)

Section Lookup.
Variable r : RepoRegistry.
Variables distro arch : string.

Lemma DistroHasRepos_stored (archRepos : Go.slice RepoConfig) :
  Spec.stored r distro arch = Some archRepos →
  DistroHasRepos r distro arch = (archRepos, true).
Proof.
  unfold Spec.stored, DistroHasRepos.
  destruct (repos r !! distro) as [distroRepos|]; simpl; [|done].
  by intros ->.
Qed.

Lemma DistroHasRepos_absent :
  Spec.stored r distro arch = None →
  DistroHasRepos r distro arch = (Go.nil, false).
Proof.
  unfold Spec.stored, DistroHasRepos.
  destruct (repos r !! distro) as [distroRepos|]; simpl; [|done].
  by intros ->.
Qed.

Lemma stored_None :
  Spec.stored r distro arch = None ↔
  repos r !! distro = None ∨
  ∃ distroRepos, repos r !! distro = Some distroRepos ∧ distroRepos !! arch = None.
Proof.
  unfold Spec.stored.
  destruct (repos r !! distro) as [distroRepos|]; simpl.
  - split; [intros H; right; eauto|].
    intros [?|(m & [= <-] & ?)]; done.
  - split; [by left|done].
Qed.

Lemma stored_Some (archRepos : Go.slice RepoConfig) :
  Spec.stored r distro arch = Some archRepos ↔
  ∃ distroRepos, repos r !! distro = Some distroRepos
                 ∧ distroRepos !! arch = Some archRepos.
Proof.
  unfold Spec.stored.
  destruct (repos r !! distro) as [distroRepos|]; simpl.
  - split; [eauto|]. by intros (m & [= <-] & ?).
  - split; [done|]. by intros (m & ? & ?).
Qed.

End Lookup.

(** ** The two loops as filters *)

Lemma len_0_elems {A : Type} (s : Go.slice A) :
  Nat.eqb (Go.len s) 0 = bool_decide (Go.elems s = []).
Proof.
  unfold Go.len. by destruct (Go.elems s).
Qed.

Lemma archLoopBody_true (acc : list RepoConfig) (repo : RepoConfig) :
  archLoopBody true (Some acc) repo = Some (acc ++ [repo]).
Proof. done. Qed.

Lemma archLoopBody_false (acc : list RepoConfig) (repo : RepoConfig) :
  archLoopBody false (Some acc) repo = Some (acc ++ filter Spec.untagged [repo]).
Proof.
  unfold archLoopBody. rewrite len_0_elems. simpl.
  rewrite filter_cons, filter_nil.
  unfold Go.append. simpl.
  destruct (decide (Spec.untagged repo)) as [Hu|Hu].
  - by rewrite bool_decide_eq_true_2.
  - rewrite bool_decide_eq_false_2 by done. simpl. by rewrite app_nil_r.
Qed.

Lemma archLoop_true (l acc : list RepoConfig) :
  foldl (archLoopBody true) (Some acc) l = Some (acc ++ l).
Proof.
  revert acc. induction l as [|repo l IH]; intros acc; simpl.
  - by rewrite app_nil_r.
  - rewrite archLoopBody_true, IH. by rewrite <- app_assoc.
Qed.

Lemma archLoop_false (l acc : list RepoConfig) :
  foldl (archLoopBody false) (Some acc) l = Some (acc ++ filter Spec.untagged l).
Proof.
  revert acc. induction l as [|repo l IH]; intros acc.
  - simpl. by rewrite filter_nil, app_nil_r.
  - cbn [foldl]. rewrite archLoopBody_false, IH, <- app_assoc.
    by rewrite <- filter_app.
Qed.

(** The inner loop appends [repo] once if the name is among the remaining
    tags, however often, and leaves the result alone otherwise. *)
Lemma tagLoop_spec (imageType : string) (repo : RepoConfig)
  (tags : list string) (acc : list RepoConfig) :
  tagLoop imageType repo tags (Some acc) =
  Some (if decide (imageType ∈ tags) then acc ++ [repo] else acc).
Proof.
  induction tags as [|tag tags IH]; cbn [tagLoop].
  - rewrite decide_False; [done|]. apply not_elem_of_nil.
  - destruct (String.eqb_spec tag imageType) as [->|Hne].
    + rewrite decide_True; [done|]. apply elem_of_cons. by left.
    + rewrite IH. destruct (decide (imageType ∈ tags)) as [Hin|Hin].
      * rewrite decide_True; [done|]. apply elem_of_cons. by right.
      * rewrite decide_False; [done|].
        rewrite elem_of_cons. intros [->|?]; done.
Qed.

Lemma imageTypeLoopBody_spec (imageType : string)
  (acc : list RepoConfig) (repo : RepoConfig) :
  imageTypeLoopBody imageType (Some acc) repo =
  Some (acc ++ filter (Spec.appliesTo imageType) [repo]).
Proof.
  unfold imageTypeLoopBody. rewrite len_0_elems, filter_cons, filter_nil.
  destruct (decide (Go.elems (ImageTypeTags repo) = [])) as [He|He].
  - rewrite bool_decide_eq_true_2 by done.
    rewrite decide_True; [done|]. by left.
  - rewrite bool_decide_eq_false_2 by done.
    rewrite tagLoop_spec.
    destruct (decide (imageType ∈ Go.elems (ImageTypeTags repo))) as [Hin|Hin].
    + rewrite decide_True; [done|]. by right.
    + rewrite decide_False; [by rewrite app_nil_r|]. by intros [?|?].
Qed.

Lemma imageTypeLoop_spec (imageType : string) (l acc : list RepoConfig) :
  foldl (imageTypeLoopBody imageType) (Some acc) l =
  Some (acc ++ filter (Spec.appliesTo imageType) l).
Proof.
  revert acc. induction l as [|repo l IH]; intros acc.
  - simpl. by rewrite filter_nil, app_nil_r.
  - cbn [foldl]. rewrite imageTypeLoopBody_spec, IH, <- app_assoc.
    by rewrite <- filter_app.
Qed.

(** ** The name-based queries on a present and on an absent pair *)

Section Queries.
Variable r : RepoRegistry.
Variables distro arch : string.

Lemma ReposByArchName_true_stored (archRepos : Go.slice RepoConfig) :
  Spec.stored r distro arch = Some archRepos →
  ReposByArchName r distro arch true = (Go.lit (Go.elems archRepos), None).
Proof.
  intros H. unfold ReposByArchName.
  rewrite (DistroHasRepos_stored _ _ _ _ H). simpl.
  by rewrite (archLoop_true _ []).
Qed.

Lemma ReposByArchName_false_stored (archRepos : Go.slice RepoConfig) :
  Spec.stored r distro arch = Some archRepos →
  ReposByArchName r distro arch false =
  (Go.lit (filter Spec.untagged (Go.elems archRepos)), None).
Proof.
  intros H. unfold ReposByArchName.
  rewrite (DistroHasRepos_stored _ _ _ _ H). simpl.
  by rewrite (archLoop_false _ []).
Qed.

Lemma ReposByArchName_absent (includeTagged : bool) :
  Spec.stored r distro arch = None →
  ReposByArchName r distro arch includeTagged =
  (Go.nil, Some (errNoRepos distro arch)).
Proof.
  intros H. unfold ReposByArchName.
  by rewrite (DistroHasRepos_absent _ _ _ H).
Qed.

Lemma reposByImageTypeName_stored (imageType : string)
  (archRepos : Go.slice RepoConfig) :
  Spec.stored r distro arch = Some archRepos →
  reposByImageTypeName r distro arch imageType =
  (Go.lit (filter (Spec.appliesTo imageType) (Go.elems archRepos)), None).
Proof.
  intros H. unfold reposByImageTypeName.
  rewrite (ReposByArchName_true_stored _ H). simpl.
  by rewrite (imageTypeLoop_spec _ _ []).
Qed.

Lemma reposByImageTypeName_absent (imageType : string) :
  Spec.stored r distro arch = None →
  reposByImageTypeName r distro arch imageType =
  (Go.nil, Some (errNoRepos distro arch)).
Proof.
  intros H. unfold reposByImageTypeName.
  by rewrite (ReposByArchName_absent _ H).
Qed.

End Queries.

(** ** Properties of the query operations *)

(** C1: when the (distro, arch) pair is present in the table,
    [reposByImageTypeName] succeeds and returns exactly the stored
    repositories whose [ImageTypeTags] is empty or has the image-type name as
    an element (string equality, so exact and case-sensitive); all others are
    dropped and the stored relative order is kept. *)
Theorem reposByImageTypeName_filters_by_tag
  (r : RepoRegistry) (distro arch imageType : string)
  (archRepos : Go.slice RepoConfig) :
  Spec.stored r distro arch = Some archRepos →
  ∃ out : list RepoConfig,
    reposByImageTypeName r distro arch imageType = (Go.lit out, None)
    ∧ out = filter (Spec.appliesTo imageType) (Go.elems archRepos)
    ∧ (∀ repo, repo ∈ out ↔
         repo ∈ Go.elems archRepos
         ∧ (Go.elems (ImageTypeTags repo) = []
            ∨ imageType ∈ Go.elems (ImageTypeTags repo)))
    ∧ out `sublist_of` Go.elems archRepos.
Proof.
  intros H. eexists. split; [by apply reposByImageTypeName_stored|].
  split; [done|]. split.
  - intros repo. rewrite list_elem_of_filter. unfold Spec.appliesTo. tauto.
  - apply sublist_filter.
Qed.

Lemma reposByImageTypeName_filters_by_tag_witness :
  Spec.stored Example.registry "fedora" "x86_64"
  = Some (Go.lit [Example.A; Example.B; Example.C])
  ∧ ∃ out : list RepoConfig,
      reposByImageTypeName Example.registry "fedora" "x86_64" "ami"
      = (Go.lit out, None)
      ∧ out = filter (Spec.appliesTo "ami")
                (Go.elems (Go.lit [Example.A; Example.B; Example.C]))
      ∧ (∀ repo, repo ∈ out ↔
           repo ∈ Go.elems (Go.lit [Example.A; Example.B; Example.C])
           ∧ (Go.elems (ImageTypeTags repo) = []
              ∨ "ami" ∈ Go.elems (ImageTypeTags repo)))
      ∧ out `sublist_of` Go.elems (Go.lit [Example.A; Example.B; Example.C]).
Proof.
  split; [vm_compute; reflexivity|].
  apply (reposByImageTypeName_filters_by_tag Example.registry "fedora" "x86_64" "ami").
  vm_compute; reflexivity.
Defined.

(** Tag matching is case-sensitive: a repository tagged ["QCOW2"] is not
    selected for "qcow2". *)
Example tag_match_is_case_sensitive :
  imageTypeLoopBody "qcow2" (Go.lit [])
    {| Name := "U"; BaseURL := ""; ImageTypeTags := Go.lit ["QCOW2"] |}
  = Go.lit [].
Proof. vm_compute. reflexivity. Qed.

(** C2: [DistroHasRepos] returns found = false exactly when the distribution
    key is absent or the architecture key is absent under it; when both are
    present it returns found = true and the stored sequence itself. *)
Theorem DistroHasRepos_lookup (r : RepoRegistry) (distro arch : string) :
  ((DistroHasRepos r distro arch).2 = false ↔
     repos r !! distro = None
     ∨ ∃ distroRepos, repos r !! distro = Some distroRepos
                      ∧ distroRepos !! arch = None)
  ∧ (∀ distroRepos archRepos,
       repos r !! distro = Some distroRepos →
       distroRepos !! arch = Some archRepos →
       DistroHasRepos r distro arch = (archRepos, true)).
Proof.
  split.
  - rewrite <- stored_None.
    destruct (Spec.stored r distro arch) as [archRepos|] eqn:H.
    + rewrite (DistroHasRepos_stored _ _ _ _ H). simpl. split; done.
    + rewrite (DistroHasRepos_absent _ _ _ H). simpl. split; done.
  - intros distroRepos archRepos H1 H2.
    apply DistroHasRepos_stored, stored_Some. eauto.
Qed.

Lemma DistroHasRepos_lookup_witness :
  DistroHasRepos Example.registry "fedora" "x86_64"
  = (Go.lit [Example.A; Example.B; Example.C], true)
  ∧ (DistroHasRepos Example.registry "centos" "x86_64").2 = false
  ∧ (DistroHasRepos Example.registry "fedora" "aarch64").2 = false.
Proof.
  split; [|split].
  - apply (proj2 (DistroHasRepos_lookup Example.registry "fedora" "x86_64")
             {[ "x86_64" := Go.lit [Example.A; Example.B; Example.C] ]});
      vm_compute; reflexivity.
  - apply (proj1 (DistroHasRepos_lookup Example.registry "centos" "x86_64")).
    left. vm_compute. reflexivity.
  - apply (proj1 (DistroHasRepos_lookup Example.registry "fedora" "aarch64")).
    right. exists {[ "x86_64" := Go.lit [Example.A; Example.B; Example.C] ]}.
    split; vm_compute; reflexivity.
Defined.

(** C3: on a present (distro, arch) pair, [ReposByArchName] with
    [includeTagged = false] returns the stored sequence without the
    repositories whose [ImageTypeTags] is non-empty, and with
    [includeTagged = true] returns every stored repository; both results keep
    the stored order. *)
Theorem ReposByArchName_filters_tagged
  (r : RepoRegistry) (distro arch : string) (archRepos : Go.slice RepoConfig) :
  Spec.stored r distro arch = Some archRepos →
  ∃ withoutTagged : list RepoConfig,
    ReposByArchName r distro arch false = (Go.lit withoutTagged, None)
    ∧ withoutTagged = filter Spec.untagged (Go.elems archRepos)
    ∧ (∀ repo, repo ∈ withoutTagged ↔
         repo ∈ Go.elems archRepos ∧ ¬ Go.len (ImageTypeTags repo) ≠ 0)
    ∧ withoutTagged `sublist_of` Go.elems archRepos
    ∧ ReposByArchName r distro arch true = (Go.lit (Go.elems archRepos), None).
Proof.
  intros H. eexists. split; [by apply ReposByArchName_false_stored|].
  split; [done|]. split; [|split].
  - intros repo. rewrite list_elem_of_filter.
    unfold Spec.untagged, Go.len.
    destruct (Go.elems (ImageTypeTags repo)); simpl; [|split; intros [? ?]; [done|lia]].
    split; intros [? ?]; (split; [done|]); [lia|done].
  - apply sublist_filter.
  - by apply ReposByArchName_true_stored.
Qed.

Lemma ReposByArchName_filters_tagged_witness :
  Spec.stored Example.registry "fedora" "x86_64"
  = Some (Go.lit [Example.A; Example.B; Example.C])
  ∧ ∃ withoutTagged : list RepoConfig,
      ReposByArchName Example.registry "fedora" "x86_64" false
      = (Go.lit withoutTagged, None)
      ∧ withoutTagged
        = filter Spec.untagged (Go.elems (Go.lit [Example.A; Example.B; Example.C]))
      ∧ (∀ repo, repo ∈ withoutTagged ↔
           repo ∈ Go.elems (Go.lit [Example.A; Example.B; Example.C])
           ∧ ¬ Go.len (ImageTypeTags repo) ≠ 0)
      ∧ withoutTagged `sublist_of` Go.elems (Go.lit [Example.A; Example.B; Example.C])
      ∧ ReposByArchName Example.registry "fedora" "x86_64" true
        = (Go.lit (Go.elems (Go.lit [Example.A; Example.B; Example.C])), None).
Proof.
  split; [vm_compute; reflexivity|].
  apply (ReposByArchName_filters_tagged Example.registry "fedora" "x86_64").
  vm_compute; reflexivity.
Defined.

(** The second example scenario of the specification. *)
Example ReposByArchName_example :
  ReposByArchName Example.registry "fedora" "x86_64" false
  = (Go.lit [Example.A], None)
  ∧ ReposByArchName Example.registry "fedora" "x86_64" true
    = (Go.lit [Example.A; Example.B; Example.C], None).
Proof. split; vm_compute; reflexivity. Qed.

(** ** Errors *)

Lemma string_app_assoc (s1 s2 s3 : string) :
  (s1 +:+ s2) +:+ s3 = s1 +:+ s2 +:+ s3.
Proof.
  induction s1 as [|c s1 IH]; [done|].
  change (String c ((s1 +:+ s2) +:+ s3) = String c (s1 +:+ s2 +:+ s3)).
  by f_equal.
Qed.

Lemma errNoRepos_names_distro (distro arch : string) :
  Spec.names (errNoRepos distro arch) distro.
Proof. unfold Spec.names, errNoRepos. eauto. Qed.

Lemma errNoRepos_names_arch (distro arch : string) :
  Spec.names (errNoRepos distro arch) arch.
Proof.
  exists ("there are no repositories for distribution '" +:+ distro +:+
          "' and architecture '"), "'".
  unfold errNoRepos. by rewrite !string_app_assoc.
Qed.

Lemma InvalidReference_not_NotFound (e : Go.error) :
  Spec.InvalidReferenceError e → ¬ Spec.NotFoundError e.
Proof.
  unfold Spec.InvalidReferenceError, Spec.NotFoundError.
  rewrite !elem_of_cons, elem_of_nil.
  intros [->|[->|[->|[]]]] (d & a & H); discriminate H.
Qed.

(** C4: on a (distro, arch) pair absent from the table, [ReposByArchName]
    fails with the not-found error, whose message names the requested distro
    and arch, and returns the nil slice with it; [reposByImageTypeName]
    returns that same error, and fails in no other case. *)
Theorem absent_pair_is_NotFoundError
  (r : RepoRegistry) (distro arch imageType : string) (includeTagged : bool) :
  (Spec.stored r distro arch = None →
   ∃ e : Go.error,
     ReposByArchName r distro arch includeTagged = (Go.nil, Some e)
     ∧ reposByImageTypeName r distro arch imageType = (Go.nil, Some e)
     ∧ Spec.NotFoundError e
     ∧ Spec.names e distro
     ∧ Spec.names e arch)
  ∧ (is_Some (reposByImageTypeName r distro arch imageType).2 ↔
     Spec.stored r distro arch = None)
  ∧ (is_Some (reposByImageTypeName r distro arch imageType).2 ↔
     is_Some (ReposByArchName r distro arch includeTagged).2).
Proof.
  split; [|split].
  - intros H. exists (errNoRepos distro arch).
    split; [by apply ReposByArchName_absent|].
    split; [by apply reposByImageTypeName_absent|].
    split; [by exists distro, arch|].
    split; [apply errNoRepos_names_distro|apply errNoRepos_names_arch].
  - destruct (Spec.stored r distro arch) as [archRepos|] eqn:H.
    + rewrite (reposByImageTypeName_stored _ _ _ _ _ H). simpl.
      split; [by intros [? ?]|done].
    + rewrite (reposByImageTypeName_absent _ _ _ _ H). simpl.
      split; [done|eauto].
  - destruct (Spec.stored r distro arch) as [archRepos|] eqn:H.
    + rewrite (reposByImageTypeName_stored _ _ _ _ _ H).
      destruct includeTagged.
      * rewrite (ReposByArchName_true_stored _ _ _ _ H). done.
      * rewrite (ReposByArchName_false_stored _ _ _ _ H). done.
    + rewrite (reposByImageTypeName_absent _ _ _ _ H).
      rewrite (ReposByArchName_absent _ _ _ _ H). done.
Qed.

Lemma absent_pair_is_NotFoundError_witness :
  Spec.stored Example.registry "fedora" "aarch64" = None
  ∧ ∃ e : Go.error,
      ReposByArchName Example.registry "fedora" "aarch64" true = (Go.nil, Some e)
      ∧ reposByImageTypeName Example.registry "fedora" "aarch64" "qcow2"
        = (Go.nil, Some e)
      ∧ Spec.NotFoundError e
      ∧ Spec.names e "fedora"
      ∧ Spec.names e "aarch64".
Proof.
  split; [vm_compute; reflexivity|].
  apply (proj1 (absent_pair_is_NotFoundError
                  Example.registry "fedora" "aarch64" "qcow2" true)).
  vm_compute; reflexivity.
Defined.

(** The message itself, on the fourth example scenario. *)
Example ReposByArchName_absent_example :
  ReposByArchName Example.registry "fedora" "aarch64" true
  = (Go.nil,
     Some "there are no repositories for distribution 'fedora' and architecture 'aarch64'").
Proof. vm_compute. reflexivity. Qed.

Lemma unset_test {A : Type} (x : Go.iface A) :
  Spec.unset x → Go.eq_nil x || Go.reflect_IsNil x = true.
Proof. by destruct x. Qed.

(** C5: a descriptor whose required parent reference is unset (an
    architecture without distribution; an image type without architecture,
    or whose architecture has no distribution) makes [ReposByArch] and
    [ReposByImageType] fail with an invalid-reference error, never with the
    not-found error, and the same one whatever the table holds. *)
Theorem unset_reference_is_InvalidReferenceError :
  (∀ arch : distro.Arch,
     Spec.unset (distro.Arch_Distro arch) →
     ∃ e : Go.error,
       Spec.InvalidReferenceError e ∧ ¬ Spec.NotFoundError e
       ∧ ∀ (r : RepoRegistry) (includeTagged : bool),
           ReposByArch r arch includeTagged = (Go.nil, Some e))
  ∧ (∀ imageType : distro.ImageType,
       Spec.unset (distro.ImageType_Arch imageType)
       ∨ (∃ arch, distro.ImageType_Arch imageType = Go.Ptr arch
                  ∧ Spec.unset (distro.Arch_Distro arch)) →
       ∃ e : Go.error,
         Spec.InvalidReferenceError e ∧ ¬ Spec.NotFoundError e
         ∧ ∀ r : RepoRegistry,
             ReposByImageType r imageType = (Go.nil, Some e)).
Proof.
  assert (∀ e, Spec.InvalidReferenceError e →
               Spec.InvalidReferenceError e ∧ ¬ Spec.NotFoundError e) as Hkind
    by eauto using InvalidReference_not_NotFound.
  assert (∀ (e : Go.error) (P : Prop),
            e ∈ [errNoArch; errNoDistroOfImageTypeArch; errNoDistro] → P →
            Spec.InvalidReferenceError e ∧ ¬ Spec.NotFoundError e ∧ P) as Hfail.
  { intros e P He HP. destruct (Hkind e He). done. }
  split.
  - intros arch Hu. exists errNoDistro. apply Hfail; [rewrite !elem_of_cons; auto 6|].
    intros r includeTagged. unfold ReposByArch. by rewrite unset_test.
  - intros imageType [Hu|(arch & Ha & Hu)].
    + exists errNoArch. apply Hfail; [rewrite !elem_of_cons; auto 6|].
      intros r. unfold ReposByImageType. by rewrite unset_test.
    + exists errNoDistroOfImageTypeArch. apply Hfail; [rewrite !elem_of_cons; auto 6|].
      intros r. unfold ReposByImageType. rewrite Ha. simpl.
      by rewrite unset_test.
Qed.

Lemma unset_reference_is_InvalidReferenceError_witness :
  (∃ e : Go.error,
     Spec.InvalidReferenceError e ∧ ¬ Spec.NotFoundError e
     ∧ ∀ (r : RepoRegistry) (includeTagged : bool),
         ReposByArch r Example.orphanArch includeTagged = (Go.nil, Some e))
  ∧ (∃ e : Go.error,
       Spec.InvalidReferenceError e ∧ ¬ Spec.NotFoundError e
       ∧ ∀ r : RepoRegistry,
           ReposByImageType r Example.orphanImageType = (Go.nil, Some e))
  ∧ (∃ e : Go.error,
       Spec.InvalidReferenceError e ∧ ¬ Spec.NotFoundError e
       ∧ ∀ r : RepoRegistry,
           ReposByImageType r Example.imageTypeOfOrphanArch = (Go.nil, Some e)).
Proof.
  split; [|split].
  - apply (proj1 unset_reference_is_InvalidReferenceError Example.orphanArch).
    exact I.
  - apply (proj2 unset_reference_is_InvalidReferenceError Example.orphanImageType).
    left. exact I.
  - apply (proj2 unset_reference_is_InvalidReferenceError
             Example.imageTypeOfOrphanArch).
    right. exists Example.orphanArch. split; [reflexivity|exact I].
Defined.

(** The fifth example scenario, on the table that does hold the pair the
    descriptor would name, and a complete descriptor chain for contrast. *)
Example ReposByArch_orphan_example :
  ReposByArch Example.registry Example.orphanArch true
  = (Go.nil, Some "there is no distribution associated with the provided architecture")
  ∧ ReposByArch Example.registry Example.orphanArchPtr true
    = (Go.nil, Some "there is no distribution associated with the provided architecture")
  ∧ ReposByArch Example.registry Example.x86_64 false = (Go.lit [Example.A], None)
  ∧ ReposByImageType Example.registry Example.qcow2
    = (Go.lit [Example.A; Example.B; Example.C], None).
Proof. repeat split; vm_compute; reflexivity. Qed.

(** ** Order *)

(** C6: on a present pair, [ReposByArchName d a false] is an order-preserving
    subsequence of [ReposByArchName d a true] made of exactly its untagged
    entries; and every successful output of [ReposByArchName] and of
    [reposByImageTypeName] is an order-preserving subsequence of the stored
    sequence of the pair. *)
Theorem outputs_are_subsequences (r : RepoRegistry) (distro arch : string) :
  (∀ archRepos : Go.slice RepoConfig,
     Spec.stored r distro arch = Some archRepos →
     ∃ withoutTagged withTagged : list RepoConfig,
       ReposByArchName r distro arch false = (Go.lit withoutTagged, None)
       ∧ ReposByArchName r distro arch true = (Go.lit withTagged, None)
       ∧ withoutTagged `sublist_of` withTagged
       ∧ withoutTagged = filter Spec.untagged withTagged)
  ∧ (∀ (includeTagged : bool) (out : Go.slice RepoConfig),
       ReposByArchName r distro arch includeTagged = (out, None) →
       ∃ archRepos : Go.slice RepoConfig,
         Spec.stored r distro arch = Some archRepos
         ∧ Go.elems out `sublist_of` Go.elems archRepos)
  ∧ (∀ (imageType : string) (out : Go.slice RepoConfig),
       reposByImageTypeName r distro arch imageType = (out, None) →
       ∃ archRepos : Go.slice RepoConfig,
         Spec.stored r distro arch = Some archRepos
         ∧ Go.elems out `sublist_of` Go.elems archRepos).
Proof.
  split; [|split].
  - intros archRepos H.
    exists (filter Spec.untagged (Go.elems archRepos)), (Go.elems archRepos).
    split; [by apply ReposByArchName_false_stored|].
    split; [by apply ReposByArchName_true_stored|].
    split; [apply sublist_filter|done].
  - intros includeTagged out Hout.
    destruct (Spec.stored r distro arch) as [archRepos|] eqn:H.
    + exists archRepos. split; [done|]. destruct includeTagged.
      * rewrite (ReposByArchName_true_stored _ _ _ _ H) in Hout.
        by injection Hout as <-.
      * rewrite (ReposByArchName_false_stored _ _ _ _ H) in Hout.
        injection Hout as <-. apply sublist_filter.
    + by rewrite (ReposByArchName_absent _ _ _ _ H) in Hout.
  - intros imageType out Hout.
    destruct (Spec.stored r distro arch) as [archRepos|] eqn:H.
    + exists archRepos. split; [done|].
      rewrite (reposByImageTypeName_stored _ _ _ _ _ H) in Hout.
      injection Hout as <-. apply sublist_filter.
    + by rewrite (reposByImageTypeName_absent _ _ _ _ H) in Hout.
Qed.

Lemma outputs_are_subsequences_witness :
  (∃ withoutTagged withTagged : list RepoConfig,
     ReposByArchName Example.registry "fedora" "x86_64" false
     = (Go.lit withoutTagged, None)
     ∧ ReposByArchName Example.registry "fedora" "x86_64" true
       = (Go.lit withTagged, None)
     ∧ withoutTagged `sublist_of` withTagged
     ∧ withoutTagged = filter Spec.untagged withTagged)
  ∧ (∃ archRepos : Go.slice RepoConfig,
       Spec.stored Example.registry "fedora" "x86_64" = Some archRepos
       ∧ Go.elems (Go.lit [Example.A]) `sublist_of` Go.elems archRepos)
  ∧ (∃ archRepos : Go.slice RepoConfig,
       Spec.stored Example.registry "fedora" "x86_64" = Some archRepos
       ∧ Go.elems (Go.lit [Example.A; Example.C]) `sublist_of` Go.elems archRepos).
Proof.
  pose proof (outputs_are_subsequences Example.registry "fedora" "x86_64")
    as (H1 & H2 & H3).
  split; [|split].
  - apply (H1 (Go.lit [Example.A; Example.B; Example.C])).
    vm_compute; reflexivity.
  - apply (H2 false). vm_compute; reflexivity.
  - apply (H3 "ami"). vm_compute; reflexivity.
Defined.

(** C7: the first example scenario of the specification. *)
Theorem reposByImageTypeName_example :
  reposByImageTypeName Example.registry "fedora" "x86_64" "qcow2"
  = (Go.lit [Example.A; Example.B; Example.C], None)
  ∧ reposByImageTypeName Example.registry "fedora" "x86_64" "ami"
    = (Go.lit [Example.A; Example.C], None)
  ∧ reposByImageTypeName Example.registry "fedora" "x86_64" "vhd"
    = (Go.lit [Example.A], None).
Proof. repeat split; vm_compute; reflexivity. Qed.

(** ** Repeated calls *)




(** Two calls in a row on the example table, with an unrelated failing call
    between them. *)
Example queries_are_deterministic_example :
  let q := QreposByImageTypeName "fedora" "x86_64" "ami" in
  let r1 := (invoke q Example.registry).2 in
  let r2 := (invoke (QReposByArchName "centos" "x86_64" true) r1).2 in
  (invoke q Example.registry).1 = Result (Go.lit [Example.A; Example.C]) None
  ∧ (invoke q r2).1 = Result (Go.lit [Example.A; Example.C]) None.
Proof. split; vm_compute; reflexivity. Qed.

(** ** Multiplicity *)




(** A repository whose tags name the image type twice is returned once per
    stored occurrence. *)
Example duplicate_tag_example :
  imageTypeLoopBody "ami" (Go.lit []) Example.D = Go.lit [Example.D]
  ∧ reposByImageTypeName Example.registryD "fedora" "x86_64" "ami"
    = (Go.lit [Example.D; Example.A; Example.D], None).
Proof. split; vm_compute; reflexivity. Qed.

(** ** Present but empty *)

(** C10: when the table maps the pair to an empty sequence, [DistroHasRepos]
    returns found = true with that sequence, and [ReposByArchName] and
    [reposByImageTypeName] succeed with an empty result; they fail, with the
    not-found error, if and only if a key is absent. *)
Theorem empty_sequence_is_found
  (r : RepoRegistry) (distro arch imageType : string) (includeTagged : bool) :
  (∀ archRepos : Go.slice RepoConfig,
     Spec.stored r distro arch = Some archRepos →
     Go.len archRepos = 0 →
     DistroHasRepos r distro arch = (archRepos, true)
     ∧ ReposByArchName r distro arch includeTagged = (Go.lit [], None)
     ∧ reposByImageTypeName r distro arch imageType = (Go.lit [], None))
  ∧ ((∃ e, (ReposByArchName r distro arch includeTagged).2 = Some e) ↔
     Spec.stored r distro arch = None)
  ∧ ((∃ e, (reposByImageTypeName r distro arch imageType).2 = Some e) ↔
     Spec.stored r distro arch = None)
  ∧ (∀ e, (ReposByArchName r distro arch includeTagged).2 = Some e
          ∨ (reposByImageTypeName r distro arch imageType).2 = Some e →
          Spec.NotFoundError e).
Proof.
  destruct (Spec.stored r distro arch) as [archRepos|] eqn:H.
  - assert (∃ out, ReposByArchName r distro arch includeTagged = (Go.lit out, None)
                   ∧ (Go.elems archRepos = [] → out = [])) as (out & Hout & Hnil).
    { destruct includeTagged; eexists; split.
      - by apply ReposByArchName_true_stored.
      - done.
      - by apply ReposByArchName_false_stored.
      - by intros ->. }
    rewrite Hout, (reposByImageTypeName_stored _ _ _ _ _ H). simpl.
    split; [|split; [|split]].
    + intros ? [= <-] Hlen. apply nil_length_inv in Hlen.
      split; [by apply DistroHasRepos_stored|].
      rewrite (Hnil Hlen). unfold Go.elems in Hlen |- *. by rewrite Hlen.
    + split; [by intros [? ?]|done].
    + split; [by intros [? ?]|done].
    + by intros e [?|?].
  - rewrite (ReposByArchName_absent _ _ _ _ H).
    rewrite (reposByImageTypeName_absent _ _ _ _ H). simpl.
    split; [done|]. split; [split; eauto|]. split; [split; eauto|].
    intros e [[= <-]|[= <-]]; by exists distro, arch.
Qed.

Lemma empty_sequence_is_found_witness :
  (DistroHasRepos Example.registryEmpty "fedora" "x86_64" = (Go.lit [], true)
   ∧ ReposByArchName Example.registryEmpty "fedora" "x86_64" false = (Go.lit [], None)
   ∧ reposByImageTypeName Example.registryEmpty "fedora" "x86_64" "qcow2"
     = (Go.lit [], None))
  ∧ (DistroHasRepos Example.registryNil "fedora" "x86_64" = (Go.nil, true)
     ∧ ReposByArchName Example.registryNil "fedora" "x86_64" true = (Go.lit [], None)
     ∧ reposByImageTypeName Example.registryNil "fedora" "x86_64" "qcow2"
       = (Go.lit [], None)).
Proof.
  split.
  - apply (proj1 (empty_sequence_is_found
                    Example.registryEmpty "fedora" "x86_64" "qcow2" false)
             (Go.lit []));
      vm_compute; reflexivity.
  - apply (proj1 (empty_sequence_is_found
                    Example.registryNil "fedora" "x86_64" "qcow2" true)
             Go.nil);
      vm_compute; reflexivity.
Defined.

(** ** Further properties of the package *)

(** *** Shape of the results *)

Lemma ReposByArchName_cases (r : RepoRegistry) (distro arch : string)
  (includeTagged : bool) :
  (∃ out, ReposByArchName r distro arch includeTagged = (Go.lit out, None))
  ∨ ReposByArchName r distro arch includeTagged
    = (Go.nil, Some (errNoRepos distro arch)).
Proof.
  destruct (Spec.stored r distro arch) as [archRepos|] eqn:H.
  - left. destruct includeTagged; eexists.
    + by apply ReposByArchName_true_stored.
    + by apply ReposByArchName_false_stored.
  - right. by apply ReposByArchName_absent.
Qed.

Lemma reposByImageTypeName_cases (r : RepoRegistry)
  (distro arch imageType : string) :
  (∃ out, reposByImageTypeName r distro arch imageType = (Go.lit out, None))
  ∨ reposByImageTypeName r distro arch imageType
    = (Go.nil, Some (errNoRepos distro arch)).
Proof.
  destruct (Spec.stored r distro arch) as [archRepos|] eqn:H.
  - left. eexists. by apply reposByImageTypeName_stored.
  - right. by apply reposByImageTypeName_absent.
Qed.

Lemma nil_iff_error_of_cases (res : Go.slice RepoConfig * option Go.error) :
  (∃ out, res = (Go.lit out, None)) ∨ (∃ e, res = (Go.nil, Some e)) →
  res.1 = Go.nil ↔ is_Some res.2.
Proof.
  intros [(out & ->)|(e & ->)]; simpl.
  - split; [done|]. by intros [? ?].
  - split; eauto.
Qed.

(** X1: the four query methods that return an error return the nil slice
    exactly when they return an error; a successful result is a non-nil
    slice, also when it has no elements. *)
Theorem result_is_nil_iff_error
  (r : RepoRegistry) (distro arch imageType : string) (includeTagged : bool)
  (archDesc : distro.Arch) (imageTypeDesc : distro.ImageType) :
  ((ReposByArchName r distro arch includeTagged).1 = Go.nil ↔
   is_Some (ReposByArchName r distro arch includeTagged).2)
  ∧ ((reposByImageTypeName r distro arch imageType).1 = Go.nil ↔
     is_Some (reposByImageTypeName r distro arch imageType).2)
  ∧ ((ReposByArch r archDesc includeTagged).1 = Go.nil ↔
     is_Some (ReposByArch r archDesc includeTagged).2)
  ∧ ((ReposByImageType r imageTypeDesc).1 = Go.nil ↔
     is_Some (ReposByImageType r imageTypeDesc).2).
Proof.
  assert (∀ d a b, (ReposByArchName r d a b).1 = Go.nil ↔
                   is_Some (ReposByArchName r d a b).2) as Harch.
  { intros d a b. apply nil_iff_error_of_cases.
    destruct (ReposByArchName_cases r d a b) as [?|?]; eauto. }
  assert (∀ d a t, (reposByImageTypeName r d a t).1 = Go.nil ↔
                   is_Some (reposByImageTypeName r d a t).2) as Himage.
  { intros d a t. apply nil_iff_error_of_cases.
    destruct (reposByImageTypeName_cases r d a t) as [?|?]; eauto. }
  split; [apply Harch|]. split; [apply Himage|]. split.
  - unfold ReposByArch.
    destruct (distro.Arch_Distro archDesc) as [| |d]; simpl;
      [split; eauto..|apply Harch].
  - unfold ReposByImageType.
    destruct (distro.ImageType_Arch imageTypeDesc) as [| |a]; simpl;
      [split; eauto..|].
    destruct (distro.Arch_Distro a) as [| |d]; simpl;
      [split; eauto..|apply Himage].
Qed.

(** X2: when [DistroHasRepos] reports found = false, the slice it returns is
    nil, whether the distribution or only the architecture is missing. *)
Theorem DistroHasRepos_miss_returns_nil
  (r : RepoRegistry) (distro arch : string) :
  (DistroHasRepos r distro arch).2 = false →
  (DistroHasRepos r distro arch).1 = Go.nil.
Proof.
  unfold DistroHasRepos.
  destruct (repos r !! distro) as [distroRepos|]; [|done].
  by destruct (distroRepos !! arch).
Qed.

Lemma DistroHasRepos_miss_returns_nil_witness :
  (DistroHasRepos Example.registry "fedora" "aarch64").2 = false
  ∧ (DistroHasRepos Example.registry "fedora" "aarch64").1 = Go.nil.
Proof.
  split; [vm_compute; reflexivity|].
  apply (DistroHasRepos_miss_returns_nil Example.registry "fedora" "aarch64").
  vm_compute; reflexivity.
Defined.

(** *** The three name-based results compared *)

Lemma untagged_appliesTo (imageType : string) (repo : RepoConfig) :
  Spec.untagged repo → Spec.appliesTo imageType repo.
Proof. by left. Qed.

Lemma filter_eq_iff {A : Type} (P Q : A → Prop)
  `{!∀ x, Decision (P x), !∀ x, Decision (Q x)} (l : list A) :
  filter P l = filter Q l ↔ ∀ x, x ∈ l → (P x ↔ Q x).
Proof.
  split.
  - intros Heq x Hx.
    assert (x ∈ filter P l ↔ x ∈ filter Q l) as Hmem by (by rewrite Heq).
    rewrite !list_elem_of_filter in Hmem. tauto.
  - induction l as [|y l IH]; intros Hall; [done|].
    rewrite !filter_cons.
    assert (P y ↔ Q y) as Hy by (apply Hall; by left).
    rewrite IH by (intros x Hx; apply Hall; by right).
    destruct (decide (P y)), (decide (Q y)); tauto || done.
Qed.

(** X3: on a present pair, the result for an image type lies between the two
    results of [ReposByArchName]: it contains, in order, everything returned
    with [includeTagged = false], and is contained, in order, in what is
    returned with [includeTagged = true]. *)
Theorem image_type_result_between
  (r : RepoRegistry) (distro arch imageType : string)
  (archRepos : Go.slice RepoConfig) :
  Spec.stored r distro arch = Some archRepos →
  ∃ withoutTagged forImageType withTagged : list RepoConfig,
    ReposByArchName r distro arch false = (Go.lit withoutTagged, None)
    ∧ reposByImageTypeName r distro arch imageType = (Go.lit forImageType, None)
    ∧ ReposByArchName r distro arch true = (Go.lit withTagged, None)
    ∧ withoutTagged `sublist_of` forImageType
    ∧ forImageType `sublist_of` withTagged
    ∧ withoutTagged = filter Spec.untagged forImageType
    ∧ length withoutTagged ≤ length forImageType ≤ length withTagged.
Proof.
  intros H. do 3 eexists.
  split; [by apply ReposByArchName_false_stored|].
  split; [by apply reposByImageTypeName_stored|].
  split; [by apply ReposByArchName_true_stored|].
  assert (filter Spec.untagged (Go.elems archRepos)
          = filter Spec.untagged
              (filter (Spec.appliesTo imageType) (Go.elems archRepos))) as Heq.
  { symmetry. apply list_filter_filter_l, untagged_appliesTo. }
  split; [rewrite Heq; apply sublist_filter|].
  split; [apply sublist_filter|]. split; [done|].
  split; [rewrite Heq|]; apply length_filter.
Qed.

Lemma image_type_result_between_witness :
  Spec.stored Example.registry "fedora" "x86_64"
  = Some (Go.lit [Example.A; Example.B; Example.C])
  ∧ ∃ withoutTagged forImageType withTagged : list RepoConfig,
      ReposByArchName Example.registry "fedora" "x86_64" false
      = (Go.lit withoutTagged, None)
      ∧ reposByImageTypeName Example.registry "fedora" "x86_64" "ami"
        = (Go.lit forImageType, None)
      ∧ ReposByArchName Example.registry "fedora" "x86_64" true
        = (Go.lit withTagged, None)
      ∧ withoutTagged `sublist_of` forImageType
      ∧ forImageType `sublist_of` withTagged
      ∧ withoutTagged = filter Spec.untagged forImageType
      ∧ length withoutTagged ≤ length forImageType ≤ length withTagged.
Proof.
  split; [vm_compute; reflexivity|].
  apply (image_type_result_between Example.registry "fedora" "x86_64" "ami"
           (Go.lit [Example.A; Example.B; Example.C])).
  vm_compute; reflexivity.
Defined.

Lemma filter_id_iff {A : Type} (P : A → Prop) `{!∀ x, Decision (P x)}
  (l : list A) :
  filter P l = l ↔ ∀ x, x ∈ l → P x.
Proof.
  split.
  - intros Heq x Hx. rewrite <- Heq in Hx.
    by apply list_elem_of_filter in Hx as [? _].
  - induction l as [|y l IH]; intros Hall; [done|].
    rewrite filter_cons, decide_True by (apply Hall; by left).
    rewrite IH; [done|]. intros x Hx. apply Hall. by right.
Qed.

Lemma lit_result_eq (l1 l2 : list RepoConfig) :
  (Go.lit l1, @None Go.error) = (Go.lit l2, None) ↔ l1 = l2.
Proof. split; [by intros [= ->]|by intros ->]. Qed.

(** X4: on a present pair, asking for an image type returns the same as
    [ReposByArchName] with [includeTagged = false] exactly when no stored
    repository carries that image type as a tag; in particular an image-type
    name that does not exist gets the untagged repositories. *)
Theorem unknown_image_type_gets_untagged
  (r : RepoRegistry) (distro arch imageType : string)
  (archRepos : Go.slice RepoConfig) :
  Spec.stored r distro arch = Some archRepos →
  reposByImageTypeName r distro arch imageType
  = ReposByArchName r distro arch false
  ↔ ∀ repo, repo ∈ Go.elems archRepos →
            imageType ∉ Go.elems (ImageTypeTags repo).
Proof.
  intros H.
  rewrite (reposByImageTypeName_stored _ _ _ _ _ H).
  rewrite (ReposByArchName_false_stored _ _ _ _ H).
  rewrite lit_result_eq, filter_eq_iff.
  unfold Spec.appliesTo, Spec.untagged.
  split; intros Hall repo Hrepo; specialize (Hall repo Hrepo).
  - intros Hin.
    assert (Go.elems (ImageTypeTags repo) = []) as Hnil by (apply Hall; by right).
    rewrite Hnil in Hin. by apply elem_of_nil in Hin.
  - split; [|by left]. by intros [?|?].
Qed.

Lemma unknown_image_type_gets_untagged_witness :
  Spec.stored Example.registry "fedora" "x86_64"
  = Some (Go.lit [Example.A; Example.B; Example.C])
  ∧ (reposByImageTypeName Example.registry "fedora" "x86_64" "vhd"
     = ReposByArchName Example.registry "fedora" "x86_64" false
     ↔ ∀ repo, repo ∈ Go.elems (Go.lit [Example.A; Example.B; Example.C]) →
               "vhd" ∉ Go.elems (ImageTypeTags repo)).
Proof.
  split; [vm_compute; reflexivity|].
  apply (unknown_image_type_gets_untagged Example.registry "fedora" "x86_64" "vhd").
  vm_compute; reflexivity.
Defined.

(** X5: on a present pair, asking for an image type returns the same as
    [ReposByArchName] with [includeTagged = true] exactly when every stored
    repository is untagged or carries that image type as a tag. *)
Theorem matching_image_type_gets_all
  (r : RepoRegistry) (distro arch imageType : string)
  (archRepos : Go.slice RepoConfig) :
  Spec.stored r distro arch = Some archRepos →
  reposByImageTypeName r distro arch imageType
  = ReposByArchName r distro arch true
  ↔ ∀ repo, repo ∈ Go.elems archRepos →
            Go.len (ImageTypeTags repo) = 0
            ∨ imageType ∈ Go.elems (ImageTypeTags repo).
Proof.
  intros H.
  rewrite (reposByImageTypeName_stored _ _ _ _ _ H).
  rewrite (ReposByArchName_true_stored _ _ _ _ H).
  rewrite lit_result_eq, filter_id_iff.
  unfold Spec.appliesTo, Go.len.
  split; intros Hall repo Hrepo; specialize (Hall repo Hrepo);
    destruct Hall as [Hnil|Hin]; auto.
  - left. by rewrite Hnil.
  - left. by apply nil_length_inv.
Qed.

Lemma matching_image_type_gets_all_witness :
  Spec.stored Example.registry "fedora" "x86_64"
  = Some (Go.lit [Example.A; Example.B; Example.C])
  ∧ (reposByImageTypeName Example.registry "fedora" "x86_64" "qcow2"
     = ReposByArchName Example.registry "fedora" "x86_64" true
     ↔ ∀ repo, repo ∈ Go.elems (Go.lit [Example.A; Example.B; Example.C]) →
               Go.len (ImageTypeTags repo) = 0
               ∨ "qcow2" ∈ Go.elems (ImageTypeTags repo)).
Proof.
  split; [vm_compute; reflexivity|].
  apply (matching_image_type_gets_all Example.registry "fedora" "x86_64" "qcow2").
  vm_compute; reflexivity.
Defined.

(** X6: on a present pair, [includeTagged] makes no difference to
    [ReposByArchName] exactly when every stored repository is untagged. *)
Theorem includeTagged_irrelevant_iff_untagged
  (r : RepoRegistry) (distro arch : string) (archRepos : Go.slice RepoConfig) :
  Spec.stored r distro arch = Some archRepos →
  ReposByArchName r distro arch false = ReposByArchName r distro arch true
  ↔ ∀ repo, repo ∈ Go.elems archRepos → Go.len (ImageTypeTags repo) = 0.
Proof.
  intros H.
  rewrite (ReposByArchName_false_stored _ _ _ _ H).
  rewrite (ReposByArchName_true_stored _ _ _ _ H).
  rewrite lit_result_eq, filter_id_iff.
  unfold Spec.untagged, Go.len.
  split; intros Hall repo Hrepo; specialize (Hall repo Hrepo).
  - by rewrite Hall.
  - by apply nil_length_inv.
Qed.

Lemma includeTagged_irrelevant_iff_untagged_witness :
  Spec.stored Example.registryUntaggedOnly "fedora" "x86_64"
  = Some (Go.lit [Example.A; Example.A])
  ∧ (ReposByArchName Example.registryUntaggedOnly "fedora" "x86_64" false
     = ReposByArchName Example.registryUntaggedOnly "fedora" "x86_64" true
     ↔ ∀ repo, repo ∈ Go.elems (Go.lit [Example.A; Example.A]) →
               Go.len (ImageTypeTags repo) = 0).
Proof.
  split; [vm_compute; reflexivity|].
  apply (includeTagged_irrelevant_iff_untagged
           Example.registryUntaggedOnly "fedora" "x86_64").
  vm_compute; reflexivity.
Defined.

(** *** The descriptor-based queries *)

(** X7: [ReposByArch] on an architecture descriptor with a live distribution
    answers for the pair of the two names: on a present pair it succeeds with
    all stored repositories, or the untagged ones, as [includeTagged] says.
    It returns an error in two cases only: the distribution reference is
    unset, or it is set and the pair of names is absent from the table. *)
Theorem ReposByArch_outcomes
  (r : RepoRegistry) (arch : distro.Arch) (includeTagged : bool) :
  (∀ (d : distro.Distro) (archRepos : Go.slice RepoConfig),
     distro.Arch_Distro arch = Go.Ptr d →
     Spec.stored r (distro.Distro_Name d) (distro.Arch_Name arch)
     = Some archRepos →
     ReposByArch r arch includeTagged
     = (Go.lit (if includeTagged then Go.elems archRepos
                else filter Spec.untagged (Go.elems archRepos)), None))
  ∧ (∀ e : Go.error,
       (ReposByArch r arch includeTagged).2 = Some e ↔
       (Spec.unset (distro.Arch_Distro arch) ∧ e = errNoDistro)
       ∨ (∃ d : distro.Distro,
            distro.Arch_Distro arch = Go.Ptr d
            ∧ Spec.stored r (distro.Distro_Name d) (distro.Arch_Name arch) = None
            ∧ e = errNoRepos (distro.Distro_Name d) (distro.Arch_Name arch))).
Proof.
  unfold ReposByArch. split.
  - intros d archRepos -> H. simpl. destruct includeTagged.
    + by apply ReposByArchName_true_stored.
    + by apply ReposByArchName_false_stored.
  - intros e. destruct (distro.Arch_Distro arch) as [| |d]; simpl.
    + split; [intros [= <-]; by left|]. by intros [[_ ->]|(d & ? & _)].
    + split; [intros [= <-]; by left|]. by intros [[_ ->]|(d & ? & _)].
    + destruct (Spec.stored r (distro.Distro_Name d) (distro.Arch_Name arch))
        as [archRepos|] eqn:H.
      * assert (∃ out, ReposByArchName r (distro.Distro_Name d)
                         (distro.Arch_Name arch) includeTagged
                       = (Go.lit out, None)) as (out & ->).
        { destruct includeTagged; eexists.
          - by apply ReposByArchName_true_stored.
          - by apply ReposByArchName_false_stored. }
        simpl. split; [done|].
        intros [[[] _]|(d' & [= <-] & Hnone & _)]. by rewrite H in Hnone.
      * rewrite (ReposByArchName_absent _ _ _ _ H). simpl. split.
        -- intros [= <-]. right. by exists d.
        -- intros [[[] _]|(d' & [= <-] & _ & ->)]. done.
Qed.

Lemma ReposByArch_outcomes_witness :
  ReposByArch Example.registry Example.x86_64 false
  = (Go.lit (filter Spec.untagged
               (Go.elems (Go.lit [Example.A; Example.B; Example.C]))), None)
  ∧ (ReposByArch Example.registry Example.orphanArchPtr true).2
    = Some errNoDistro.
Proof.
  split.
  - apply (proj1 (ReposByArch_outcomes Example.registry Example.x86_64 false)
             Example.fedora (Go.lit [Example.A; Example.B; Example.C]));
      vm_compute; reflexivity.
  - apply (proj2 (ReposByArch_outcomes Example.registry Example.orphanArchPtr true)).
    left. split; [exact I|reflexivity].
Defined.

(** X8: [ReposByImageType] on a complete descriptor chain answers for the
    distribution name, architecture name and image-type name: on a present
    pair it succeeds with the stored repositories that are untagged or tagged
    with the image-type name.  It returns an error in three cases only, tried
    in this order: the architecture reference is unset; the architecture's
    distribution reference is unset; the pair of names is absent. *)
Theorem ReposByImageType_outcomes
  (r : RepoRegistry) (imageType : distro.ImageType) :
  (∀ (arch : distro.Arch) (d : distro.Distro) (archRepos : Go.slice RepoConfig),
     distro.ImageType_Arch imageType = Go.Ptr arch →
     distro.Arch_Distro arch = Go.Ptr d →
     Spec.stored r (distro.Distro_Name d) (distro.Arch_Name arch)
     = Some archRepos →
     ReposByImageType r imageType
     = (Go.lit (filter (Spec.appliesTo (distro.ImageType_Name imageType))
                  (Go.elems archRepos)), None))
  ∧ (∀ e : Go.error,
       (ReposByImageType r imageType).2 = Some e ↔
       (Spec.unset (distro.ImageType_Arch imageType) ∧ e = errNoArch)
       ∨ (∃ arch : distro.Arch,
            distro.ImageType_Arch imageType = Go.Ptr arch
            ∧ Spec.unset (distro.Arch_Distro arch)
            ∧ e = errNoDistroOfImageTypeArch)
       ∨ (∃ (arch : distro.Arch) (d : distro.Distro),
            distro.ImageType_Arch imageType = Go.Ptr arch
            ∧ distro.Arch_Distro arch = Go.Ptr d
            ∧ Spec.stored r (distro.Distro_Name d) (distro.Arch_Name arch) = None
            ∧ e = errNoRepos (distro.Distro_Name d) (distro.Arch_Name arch))).
Proof.
  unfold ReposByImageType. split.
  - intros arch d archRepos -> -> H. simpl.
    by apply reposByImageTypeName_stored.
  - intros e. destruct (distro.ImageType_Arch imageType) as [| |arch]; simpl.
    + split; [intros [= <-]; by left|].
      by intros [[_ ->]|[(a & ? & _)|(a & d & ? & _)]].
    + split; [intros [= <-]; by left|].
      by intros [[_ ->]|[(a & ? & _)|(a & d & ? & _)]].
    + destruct (distro.Arch_Distro arch) as [| |d] eqn:Hd; simpl.
      * split; [intros [= <-]; right; left; exists arch; by rewrite Hd|].
        intros [[[] _]|[(a & [= <-] & _ & ->)|(a & d & [= <-] & Hd' & _)]];
          [done|]. by rewrite Hd in Hd'.
      * split; [intros [= <-]; right; left; exists arch; by rewrite Hd|].
        intros [[[] _]|[(a & [= <-] & _ & ->)|(a & d & [= <-] & Hd' & _)]];
          [done|]. by rewrite Hd in Hd'.
      * destruct (Spec.stored r (distro.Distro_Name d) (distro.Arch_Name arch))
          as [archRepos|] eqn:H.
        -- rewrite (reposByImageTypeName_stored _ _ _ _ _ H). simpl.
           split; [done|].
           intros [[[] _]|[(a & [= <-] & Hu & _)|(a & d' & [= <-] & Hd' & Hn & _)]].
           ++ by rewrite Hd in Hu.
           ++ rewrite Hd in Hd'. injection Hd' as <-. by rewrite H in Hn.
        -- rewrite (reposByImageTypeName_absent _ _ _ _ H). simpl. split.
           ++ intros [= <-]. right. right. by exists arch, d.
           ++ intros [[[] _]|[(a & [= <-] & Hu & _)|(a & d' & [= <-] & Hd' & _ & ->)]].
              ** by rewrite Hd in Hu.
              ** rewrite Hd in Hd'. by injection Hd' as <-.
Qed.

Lemma ReposByImageType_outcomes_witness :
  ReposByImageType Example.registry Example.qcow2
  = (Go.lit (filter (Spec.appliesTo "qcow2")
               (Go.elems (Go.lit [Example.A; Example.B; Example.C]))), None)
  ∧ (ReposByImageType Example.registry Example.imageTypeOfOrphanArch).2
    = Some errNoDistroOfImageTypeArch.
Proof.
  split.
  - apply (proj1 (ReposByImageType_outcomes Example.registry Example.qcow2)
             Example.x86_64 Example.fedora
             (Go.lit [Example.A; Example.B; Example.C]));
      vm_compute; reflexivity.
  - apply (proj2 (ReposByImageType_outcomes Example.registry
                    Example.imageTypeOfOrphanArch)).
    right. left. exists Example.orphanArch.
    split; [reflexivity|]. split; [exact I|reflexivity].
Defined.

(** *** The table and the queries *)

(** X9: a name-based query on a pair looks at the entry of that pair and at
    nothing else: two registries that agree on the entry of (distro, arch),
    whatever else they hold, give the same answer to [DistroHasRepos],
    [ReposByArchName] and [reposByImageTypeName] on it. *)
Theorem queries_depend_only_on_the_pair
  (r1 r2 : RepoRegistry) (distro arch imageType : string)
  (includeTagged : bool) :
  repos r1 !! distro ≫= (λ distroRepos, distroRepos !! arch)
  = repos r2 !! distro ≫= (λ distroRepos, distroRepos !! arch) →
  DistroHasRepos r1 distro arch = DistroHasRepos r2 distro arch
  ∧ ReposByArchName r1 distro arch includeTagged
    = ReposByArchName r2 distro arch includeTagged
  ∧ reposByImageTypeName r1 distro arch imageType
    = reposByImageTypeName r2 distro arch imageType.
Proof.
  fold (Spec.stored r1 distro arch). fold (Spec.stored r2 distro arch).
  intros Heq.
  destruct (Spec.stored r2 distro arch) as [archRepos|] eqn:H2.
  - rewrite (DistroHasRepos_stored _ _ _ _ Heq), (DistroHasRepos_stored _ _ _ _ H2).
    rewrite (reposByImageTypeName_stored _ _ _ _ _ Heq).
    rewrite (reposByImageTypeName_stored _ _ _ _ _ H2).
    split; [done|]. split; [|done]. destruct includeTagged.
    + by rewrite (ReposByArchName_true_stored _ _ _ _ Heq),
        (ReposByArchName_true_stored _ _ _ _ H2).
    + by rewrite (ReposByArchName_false_stored _ _ _ _ Heq),
        (ReposByArchName_false_stored _ _ _ _ H2).
  - rewrite (DistroHasRepos_absent _ _ _ Heq), (DistroHasRepos_absent _ _ _ H2).
    rewrite (reposByImageTypeName_absent _ _ _ _ Heq).
    rewrite (reposByImageTypeName_absent _ _ _ _ H2).
    by rewrite (ReposByArchName_absent _ _ _ _ Heq),
      (ReposByArchName_absent _ _ _ _ H2).
Qed.

Lemma queries_depend_only_on_the_pair_witness :
  repos Example.registry !! "fedora" ≫= (λ distroRepos, distroRepos !! "x86_64")
  = repos Example.registryMore !! "fedora"
      ≫= (λ distroRepos, distroRepos !! "x86_64")
  ∧ DistroHasRepos Example.registry "fedora" "x86_64"
    = DistroHasRepos Example.registryMore "fedora" "x86_64"
  ∧ ReposByArchName Example.registry "fedora" "x86_64" false
    = ReposByArchName Example.registryMore "fedora" "x86_64" false
  ∧ reposByImageTypeName Example.registry "fedora" "x86_64" "ami"
    = reposByImageTypeName Example.registryMore "fedora" "x86_64" "ami".
Proof.
  split; [vm_compute; reflexivity|].
  apply (queries_depend_only_on_the_pair
           Example.registry Example.registryMore "fedora" "x86_64" "ami" false).
  vm_compute; reflexivity.
Defined.

Lemma stored_singleton (distro arch : string) (archRepos : Go.slice RepoConfig) :
  Spec.stored (NewFromDistrosRepoConfigs {[ distro := {[ arch := archRepos ]} ]})
    distro arch
  = Some archRepos.
Proof.
  unfold Spec.stored, NewFromDistrosRepoConfigs. simpl.
  rewrite lookup_singleton_eq. simpl. by rewrite lookup_singleton_eq.
Qed.

(** X10: the selections are idempotent.  A registry built by
    [NewFromDistrosRepoConfigs] from the successful output of
    [reposByImageTypeName] (or of [ReposByArchName]) for a pair answers the
    same query on that pair with that same output. *)
Theorem requery_of_registered_output
  (r : RepoRegistry) (distro arch imageType : string) (includeTagged : bool)
  (out : list RepoConfig) :
  (reposByImageTypeName r distro arch imageType = (Go.lit out, None) →
   reposByImageTypeName
     (NewFromDistrosRepoConfigs {[ distro := {[ arch := Go.lit out ]} ]})
     distro arch imageType
   = (Go.lit out, None))
  ∧ (ReposByArchName r distro arch includeTagged = (Go.lit out, None) →
     ReposByArchName
       (NewFromDistrosRepoConfigs {[ distro := {[ arch := Go.lit out ]} ]})
       distro arch includeTagged
     = (Go.lit out, None)).
Proof.
  pose proof (stored_singleton distro arch (Go.lit out)) as Hnew.
  destruct (Spec.stored r distro arch) as [archRepos|] eqn:H.
  - split.
    + rewrite (reposByImageTypeName_stored _ _ _ _ _ H). intros [= <-].
      rewrite (reposByImageTypeName_stored _ _ _ _ _ Hnew). simpl.
      by rewrite list_filter_filter_l.
    + destruct includeTagged.
      * rewrite (ReposByArchName_true_stored _ _ _ _ H). intros [= <-].
        by rewrite (ReposByArchName_true_stored _ _ _ _ Hnew).
      * rewrite (ReposByArchName_false_stored _ _ _ _ H). intros [= <-].
        rewrite (ReposByArchName_false_stored _ _ _ _ Hnew). simpl.
        by rewrite list_filter_filter_l.
  - split.
    + by rewrite (reposByImageTypeName_absent _ _ _ _ H).
    + by rewrite (ReposByArchName_absent _ _ _ _ H).
Qed.

Lemma requery_of_registered_output_witness :
  (reposByImageTypeName Example.registry "fedora" "x86_64" "ami"
   = (Go.lit [Example.A; Example.C], None))
  ∧ reposByImageTypeName
      (NewFromDistrosRepoConfigs
         {[ "fedora" := {[ "x86_64" := Go.lit [Example.A; Example.C] ]} ]})
      "fedora" "x86_64" "ami"
    = (Go.lit [Example.A; Example.C], None)
  ∧ ReposByArchName
      (NewFromDistrosRepoConfigs
         {[ "fedora" := {[ "x86_64" := Go.lit [Example.A] ]} ]})
      "fedora" "x86_64" false
    = (Go.lit [Example.A], None).
Proof.
  split; [vm_compute; reflexivity|]. split.
  - apply (proj1 (requery_of_registered_output
                    Example.registry "fedora" "x86_64" "ami" false
                    [Example.A; Example.C])).
    vm_compute; reflexivity.
  - apply (proj2 (requery_of_registered_output
                    Example.registry "fedora" "x86_64" "ami" false
                    [Example.A])).
    vm_compute; reflexivity.
Defined.

(** X11: [New] fails exactly when the loader fails, hands the loader's error
    on unchanged and returns no registry with it; when the loader succeeds,
    [New] returns the registry that [NewFromDistrosRepoConfigs] builds from the
    loaded table, so both constructors answer every query alike. *)
Theorem New_outcomes
  (LoadAllRepositories : Go.slice string → DistrosRepoConfigs * option Go.error)
  (repoConfigPaths : Go.slice string) :
  (∀ e : Go.error,
     (LoadAllRepositories repoConfigPaths).2 = Some e →
     New LoadAllRepositories repoConfigPaths = (None, Some e))
  ∧ (∀ repositories : DistrosRepoConfigs,
       LoadAllRepositories repoConfigPaths = (repositories, None) →
       New LoadAllRepositories repoConfigPaths
       = (Some (NewFromDistrosRepoConfigs repositories), None))
  ∧ ((New LoadAllRepositories repoConfigPaths).1 = None ↔
     is_Some (New LoadAllRepositories repoConfigPaths).2)
  ∧ (New LoadAllRepositories repoConfigPaths).2
    = (LoadAllRepositories repoConfigPaths).2.
Proof.
  unfold New.
  destruct (LoadAllRepositories repoConfigPaths) as [repositories [e|]]; simpl.
  - split; [by intros ? [= <-]|]. split; [done|]. split; [|done].
    split; eauto.
  - split; [done|]. split; [by intros ? [= <-]|]. split; [|done].
    split; [done|by intros [? ?]].
Qed.

Lemma New_outcomes_witness :
  New Example.loader (Go.lit ["/nonexistent"])
  = (None, Some "no repository definitions found")
  ∧ New Example.loader (Go.lit ["/etc/osbuild-composer/repositories"])
    = (Some (NewFromDistrosRepoConfigs
               {[ "fedora" := {[ "x86_64" :=
                    Go.lit [Example.A; Example.B; Example.C] ]} ]}), None).
Proof.
  split.
  - apply (proj1 (New_outcomes Example.loader (Go.lit ["/nonexistent"]))).
    vm_compute; reflexivity.
  - apply (proj1 (proj2 (New_outcomes Example.loader
                           (Go.lit ["/etc/osbuild-composer/repositories"])))).
    vm_compute; reflexivity.
Defined.
